(** * Guardrails with LangChain: the tagged multi-turn conversation loop

    A shallow embedding of the last code cell of
    [responsible_ai/bedrock-guardrails/Guardrails with LangChain.ipynb]:
    [create_guardrails_format], [convert_to_standard_format] and
    [run_chat_interface].

    Conventions of the embedding.
    - Python values are the inductive [pyval]: [str], [tuple], [list] and
      [dict] with [str] keys.  These are the only shapes the cell builds
      or inspects.
    - A [str] is a Rocq [string]; each character stands for the code point
      with the same number, so the model covers text over code points
      0..255.  [isspace] and [lower] follow CPython on that range.
    - Code that may raise returns a [result]; [Raise] carries the
      exception class and its message.  Every class used here derives
      from [Exception], so [except Exception] catches all of them.
    - The chat model [llm] is an external collaborator: a state type and
      an [invoke] function, both parameters of the session.  It does not
      mutate the list it is handed.
    - The interactive loop consumes operator lines one at a time; the
      events it causes (prompts, prints, collaborator calls) are logged
      in order. *)

From Stdlib Require Import List String Ascii Bool NArith Arith Lia.
Import ListNotations.
Local Open Scope string_scope.
Local Open Scope list_scope.

(** ** Python values and exceptions *)

#[local] Set Warnings "-register-all".

Inductive pyval : Type :=
| VStr (s : string)
| VTuple (items : list pyval)
| VList (items : list pyval)
| VDict (entries : list (string * pyval)).

Inductive exn : Type :=
| Exn (cls : string) (msg : string).

Inductive result (A : Type) : Type :=
| Ok (a : A)
| Raise (e : exn).

Arguments Ok {A} a.
Arguments Raise {A} e.

Definition bind {A B : Type} (r : result A) (k : A -> result B) : result B :=
  match r with
  | Ok a => k a
  | Raise e => Raise e
  end.

Notation "x <- r ;; k" := (bind r (fun x => k))
  (at level 61, r at next level, right associativity).

(** [isinstance(message, dict)] *)
Definition isinstance_dict (v : pyval) : bool :=
  match v with
  | VDict _ => true
  | _ => false
  end.

Fixpoint dict_lookup (k : string) (entries : list (string * pyval)) : option pyval :=
  match entries with
  | [] => None
  | (k', v) :: rest => if String.eqb k k' then Some v else dict_lookup k rest
  end.

(** [v[k]] for a [str] key [k]. *)
Definition getitem (v : pyval) (k : string) : result pyval :=
  match v with
  | VDict entries =>
      match dict_lookup k entries with
      | Some x => Ok x
      | None => Raise (Exn "KeyError" ("'" ++ k ++ "'"))
      end
  | VStr _ => Raise (Exn "TypeError" "string indices must be integers, not 'str'")
  | VList _ => Raise (Exn "TypeError" "list indices must be integers or slices, not str")
  | VTuple _ => Raise (Exn "TypeError" "tuple indices must be integers or slices, not str")
  end.

(** [v[0]] *)
Definition getitem0 (v : pyval) : result pyval :=
  match v with
  | VList (x :: _) => Ok x
  | VList [] => Raise (Exn "IndexError" "list index out of range")
  | VTuple (x :: _) => Ok x
  | VTuple [] => Raise (Exn "IndexError" "tuple index out of range")
  | VStr (String c _) => Ok (VStr (String c EmptyString))
  | VStr EmptyString => Raise (Exn "IndexError" "string index out of range")
  | VDict _ => Raise (Exn "KeyError" "0")
  end.

(** ** [str.strip] and [str.lower] on code points 0..255 *)

(** [str.isspace] of one character: 0x09-0x0D, 0x1C-0x1F, 0x20, 0x85, 0xA0. *)
Definition isspace (c : ascii) : bool :=
  let n := N_of_ascii c in
  ((9 <=? n) && (n <=? 13) || (28 <=? n) && (n <=? 32)
   || (n =? 133) || (n =? 160))%N.

Fixpoint lstrip (s : string) : string :=
  match s with
  | EmptyString => EmptyString
  | String c rest => if isspace c then lstrip rest else s
  end.

Fixpoint rstrip (s : string) : string :=
  match s with
  | EmptyString => EmptyString
  | String c rest =>
      match rstrip rest with
      | EmptyString => if isspace c then EmptyString else String c EmptyString
      | kept => String c kept
      end
  end.

Definition strip (s : string) : string := rstrip (lstrip s).

(** Lowercase of one character: A-Z, and 0xC0-0xDE except 0xD7, move up by 32. *)
Definition lower_char (c : ascii) : ascii :=
  let n := N_of_ascii c in
  if ((65 <=? n) && (n <=? 90)
      || (192 <=? n) && (n <=? 222) && negb (n =? 215))%N
  then ascii_of_N (n + 32)
  else c.

Fixpoint lower (s : string) : string :=
  match s with
  | EmptyString => EmptyString
  | String c rest => String (lower_char c) (lower rest)
  end.

(** ** The two helpers of the cell *)

Definition create_guardrails_format (text : string) : pyval :=
  VDict
    [ ("role", VStr "user");
      ("content",
        VList
          [ VDict
              [ ("guardContent",
                  VDict [ ("text", VDict [ ("text", VStr text) ]) ]) ] ]) ].

(** The [for] loop of [convert_to_standard_format]: [standardized_messages]
    is the accumulator, appended to at each iteration; a failing subscript
    aborts the whole call. *)
Fixpoint convert_loop (message_history standardized_messages : list pyval)
  : result (list pyval) :=
  match message_history with
  | [] => Ok standardized_messages
  | message :: rest =>
      if isinstance_dict message then
        role <- getitem message "role" ;;
        c <- getitem message "content" ;;
        c0 <- getitem0 c ;;
        g <- getitem c0 "guardContent" ;;
        t <- getitem g "text" ;;
        content <- getitem t "text" ;;
        convert_loop rest (standardized_messages ++ [VTuple [role; content]])
      else
        convert_loop rest (standardized_messages ++ [message])
  end.

Definition convert_to_standard_format (message_history : list pyval)
  : result (list pyval) :=
  convert_loop message_history [].

(** ** Shapes of transcript entries *)

Definition system_turn : pyval :=
  VTuple
    [ VStr "system";
      VStr "You are a helpful assistant that helps customers with bank related tasks like opening a checking or savings bank account, check balances." ].

Definition assistant_turn (content : pyval) : pyval :=
  VTuple [VStr "assistant"; content].

Definition user_turn (text : string) : pyval :=
  VTuple [VStr "user"; VStr text].

Definition plain (m : pyval) : Prop := isinstance_dict m = false.

(** What one iteration of the loop of [convert_to_standard_format] appends
    for [message]. *)
Definition standardize (message : pyval) : result pyval :=
  if isinstance_dict message then
    role <- getitem message "role" ;;
    c <- getitem message "content" ;;
    c0 <- getitem0 c ;;
    g <- getitem c0 "guardContent" ;;
    t <- getitem g "text" ;;
    content <- getitem t "text" ;;
    Ok (VTuple [role; content])
  else Ok message.

(** A transcript entry the cell itself can build: a plain entry or a tagged
    user turn. *)
Definition turn_like (m : pyval) : Prop :=
  plain m \/ exists text, m = create_guardrails_format text.

(** A transcript as the loop keeps it: the system turn first, then plain
    entries and tagged user turns. *)
Definition transcript_ok (h : list pyval) : Prop :=
  nth_error h 0 = Some system_turn /\ Forall turn_like h.

(** A submitted sequence: plain entries, then one tagged user turn. *)
Definition submitted_ok (messages : list pyval) : Prop :=
  exists earlier text,
    messages = earlier ++ [create_guardrails_format text]
    /\ Forall plain earlier.

(** ** Methods of a [list] called without arguments

    [l.name()] on a list object: the new contents of the list, or the
    exception the call raises.  [pop] removes the last element; a name that
    is no attribute of [list] raises [AttributeError] and leaves the list
    as it was.  Of the methods of [list] only those callable without an
    argument and without comparing elements are listed. *)
Definition list_call0 (name : string) (l : list pyval) : result (list pyval) :=
  if String.eqb name "pop" then
    match l with
    | [] => Raise (Exn "IndexError" "pop from empty list")
    | _ => Ok (removelast l)
    end
  else if String.eqb name "clear" then Ok []
  else if String.eqb name "reverse" then Ok (rev l)
  else if String.eqb name "copy" then Ok l
  else
    Raise (Exn "AttributeError"
             ("'list' object has no attribute '" ++ name ++ "'")).

(** ** The interactive session *)

Inductive event : Type :=
| Input (prompt : string)            (* [input(prompt)] shows the prompt *)
| Print (text : string)              (* [print] of a fixed or formatted text *)
| PrintHistory (h : list pyval)      (* [print(conversation_history)] *)
| PrintAssistant (content : pyval)   (* [print(f"Assistant: {...}")] *)
| Invoke (messages : list pyval).    (* [llm.invoke(conversation_history)] *)

Inductive status : Type :=
| AwaitingInput                      (* the loop is back at [input] *)
| ChatEnded                          (* [break]: the function returns *)
| Uncaught (e : exn).                (* an exception leaves the function *)

Section ChatInterface.

(** The collaborator: [invoke st messages] is the next collaborator state
    and either [ai_response.content] or the exception raised. *)
Variable llm_state : Type.
Variable llm_invoke : llm_state -> list pyval -> llm_state * result pyval.

Record session : Type := mkSession {
  conversation_history : list pyval;
  llm : llm_state;
  events : list event
}.

Definition emit (s : session) (es : list event) : session :=
  mkSession (conversation_history s) (llm s) (events s ++ es).

Definition set_history (s : session) (h : list pyval) : session :=
  mkSession h (llm s) (events s).

(** The [except Exception as e] handler. *)
Definition handler (s : session) (e : exn) : session * status :=
  let msg := match e with Exn _ m => m end in
  let s := emit s [Print ("Error: " ++ msg); Print "Please try again."] in
  match list_call0 "popRight" (conversation_history s) with
  | Ok h => (set_history s h, AwaitingInput)
  | Raise e' => (s, Uncaught e')
  end.

(** The [try] block. *)
Definition submit (s : session) (user_input : string) : session * status :=
  match convert_to_standard_format (conversation_history s) with
  | Raise e => handler s e
  | Ok standard =>
      let h := standard ++ [create_guardrails_format user_input] in
      let s := emit (set_history s h) [Invoke h] in
      match llm_invoke (llm s) h with
      | (st, Raise e) => handler (mkSession h st (events s)) e
      | (st, Ok content) =>
          let s := mkSession (h ++ [assistant_turn content]) st (events s) in
          (emit s [PrintAssistant content], AwaitingInput)
      end
  end.

(** One iteration of [while True] on the line the operator types. *)
Definition loop_body (s : session) (line : string) : session * status :=
  let s := emit s [Input "You: "] in
  let user_input := strip line in
  if String.eqb (lower user_input) "quit" then
    (emit s [Print "Chat ended."], ChatEnded)
  else if String.eqb user_input "" then
    (emit s [Print "Please enter a message."], AwaitingInput)
  else if String.eqb (lower user_input) "debug_dump" then
    (emit s [Print "DEBUG_DUMP CALLED"; PrintHistory (conversation_history s)],
     AwaitingInput)
  else submit s user_input.

Fixpoint run (s : session) (lines : list string) : session * status :=
  match lines with
  | [] => (s, AwaitingInput)
  | line :: rest =>
      match loop_body s line with
      | (s', AwaitingInput) => run s' rest
      | stopped => stopped
      end
  end.

Definition start (st : llm_state) : session :=
  mkSession [system_turn] st [Print "Chat started. Type 'quit' to exit."].

Definition run_chat_interface (st : llm_state) (lines : list string)
  : session * status :=
  run (start st) lines.

(** The line is neither a command nor empty: it reaches the [try] block. *)
Definition is_message (line : string) : bool :=
  negb (String.eqb (lower (strip line)) "quit")
  && negb (String.eqb (strip line) "")
  && negb (String.eqb (lower (strip line)) "debug_dump").

Definition attribute_error : exn :=
  Exn "AttributeError" "'list' object has no attribute 'popRight'".

Definition error_report (e : exn) : list event :=
  [Print ("Error: " ++ match e with Exn _ m => m end); Print "Please try again."].

(** Every call to the collaborator recorded in [es] was well formed. *)
Definition invokes_ok (es : list event) : Prop :=
  forall messages, In (Invoke messages) es -> submitted_ok messages.

(** The six ways one iteration can go, each with the session and status it
    ends in. *)
Inductive iteration (s : session) (line : string) : session * status -> Prop :=
| it_quit :
    lower (strip line) = "quit" ->
    iteration s line
      (emit s [Input "You: "; Print "Chat ended."], ChatEnded)
| it_empty :
    strip line = "" ->
    iteration s line
      (emit s [Input "You: "; Print "Please enter a message."], AwaitingInput)
| it_dump :
    lower (strip line) = "debug_dump" ->
    iteration s line
      (emit s [Input "You: "; Print "DEBUG_DUMP CALLED";
               PrintHistory (conversation_history s)], AwaitingInput)
| it_convert_fails e :
    is_message line = true ->
    convert_to_standard_format (conversation_history s) = Raise e ->
    iteration s line
      (emit s (Input "You: " :: error_report e), Uncaught attribute_error)
| it_invoke_fails standard st e :
    is_message line = true ->
    convert_to_standard_format (conversation_history s) = Ok standard ->
    llm_invoke (llm s) (standard ++ [create_guardrails_format (strip line)])
    = (st, Raise e) ->
    iteration s line
      (mkSession (standard ++ [create_guardrails_format (strip line)]) st
         (events s
          ++ Input "You: "
             :: Invoke (standard ++ [create_guardrails_format (strip line)])
             :: error_report e),
       Uncaught attribute_error)
| it_success standard st content :
    is_message line = true ->
    convert_to_standard_format (conversation_history s) = Ok standard ->
    llm_invoke (llm s) (standard ++ [create_guardrails_format (strip line)])
    = (st, Ok content) ->
    iteration s line
      (mkSession
         (standard
          ++ [create_guardrails_format (strip line); assistant_turn content])
         st
         (events s
          ++ [Input "You: ";
              Invoke (standard ++ [create_guardrails_format (strip line)]);
              PrintAssistant content]),
       AwaitingInput).

(** [exchanges s xs s']: from [s], the lines of [xs] are submitted one after
    the other, each call to the collaborator succeeds with the content paired
    with the line, and the session is then [s']. *)
Inductive exchanges : session -> list (string * pyval) -> session -> Prop :=
| exchanges_nil s : exchanges s [] s
| exchanges_cons s line content standard st rest s' :
    is_message line = true ->
    convert_to_standard_format (conversation_history s) = Ok standard ->
    llm_invoke (llm s) (standard ++ [create_guardrails_format (strip line)])
    = (st, Ok content) ->
    exchanges (fst (loop_body s line)) rest s' ->
    exchanges s ((line, content) :: rest) s'.

End ChatInterface.

Arguments conversation_history {llm_state} s.
Arguments llm {llm_state} s.
Arguments events {llm_state} s.
Arguments mkSession {llm_state} _ _ _.
Arguments emit {llm_state} s es.
Arguments set_history {llm_state} s h.
Arguments handler {llm_state} s e.
Arguments start {llm_state} st.
Arguments submit {llm_state} llm_invoke s user_input.
Arguments loop_body {llm_state} llm_invoke s line.
Arguments run {llm_state} llm_invoke s lines.
Arguments run_chat_interface {llm_state} llm_invoke st lines.
Arguments iteration {llm_state} llm_invoke s line _.
Arguments exchanges {llm_state} llm_invoke _ _ _.

(** The transcript that [xs] successful exchanges leave after the system
    turn: every user turn but the newest has been converted to a pair by
    the submission that followed it. *)
Fixpoint shown (xs : list (string * pyval)) : list pyval :=
  match xs with
  | [] => []
  | (line, content) :: rest =>
      match rest with
      | [] => [create_guardrails_format (strip line); assistant_turn content]
      | _ => user_turn (strip line) :: assistant_turn content :: shown rest
      end
  end.

(** The same transcript with every turn in pair form. *)
Definition all_plain (xs : list (string * pyval)) : list pyval :=
  flat_map (fun x => [user_turn (strip (fst x)); assistant_turn (snd x)]) xs.

(** A collaborator that replays a script of outcomes, one per call, and is
    unreachable once the script is used up. *)
Definition scripted_invoke (script : list (result pyval)) (_ : list pyval)
  : list (result pyval) * result pyval :=
  match script with
  | [] => ([], Raise (Exn "TransportError" "no response"))
  | r :: rest => (rest, r)
  end.

Definition run_scripted (script : list (result pyval)) (lines : list string)
  : session (list (result pyval)) * status :=
  run_chat_interface scripted_invoke script lines.

Definition blocked : result pyval :=
  Raise (Exn "ValidationException" "Guardrail blocked the request").


(** The string consists of white space only. *)
Definition whitespace (s : string) : Prop :=
  forall c, In c (list_ascii_of_string s) -> isspace c = true.

(** The sequences handed to the collaborator, in call order. *)
Definition invocations (es : list event) : list (list pyval) :=
  flat_map (fun e => match e with Invoke messages => [messages] | _ => [] end)
    es.

(** The line takes one of the two [continue] branches: nothing to send. *)
Definition is_noop (line : string) : bool :=
  String.eqb (strip line) "" || String.eqb (lower (strip line)) "debug_dump".

(** The one-element content list of a tagged turn. *)
Definition guard_block (text : pyval) : pyval :=
  VDict [ ("guardContent", VDict [ ("text", VDict [ ("text", text) ]) ]) ].

(** Two sessions that differ at most in what was printed. *)
Definition same_state {llm_state : Type} (s1 s2 : session llm_state) : Prop :=
  conversation_history s1 = conversation_history s2
  /\ llm s1 = llm s2
  /\ invocations (events s1) = invocations (events s2).

(** The scenarios of the notebook. *)
Definition checking_answer : pyval :=
  VStr "A checking account is a deposit account for everyday payments.".

Definition savings_answer : pyval :=
  VStr "A savings account earns interest on the money you keep in it.".

Definition two_exchanges : list (string * pyval) :=
  [ ("What is a checking account?", checking_answer);
    ("  And a savings account? ", savings_answer) ].

Definition after_two_exchanges : session (list (result pyval)) :=
  fst (run_scripted [Ok checking_answer; Ok savings_answer]
         (map fst two_exchanges)).

Definition stock_question : string := "What is a good stock to invest on?".

(** * Properties of the helpers *)

Example convert_demo :
  convert_to_standard_format
    [VTuple [VStr "system"; VStr "helper"]; create_guardrails_format "hi"]
  = Ok [VTuple [VStr "system"; VStr "helper"]; VTuple [VStr "user"; VStr "hi"]].
Proof. reflexivity. Qed.

Example strip_demo : strip "  Quit " = "Quit" /\ lower "Quit" = "quit".
Proof. split; reflexivity. Qed.

Lemma convert_loop_step (m : pyval) (rest acc : list pyval) :
  convert_loop (m :: rest) acc
  = (m' <- standardize m ;; convert_loop rest (acc ++ [m'])).
Proof.
  cbn [convert_loop]. unfold standardize.
  destruct (isinstance_dict m); [ | reflexivity ].
  repeat match goal with
         | |- context [bind ?r _] =>
             lazymatch r with
             | getitem _ _ => destruct r
             | getitem0 _ => destruct r
             end; cbn [bind]; try reflexivity
         end.
Qed.

Lemma convert_loop_acc (h : list pyval) :
  forall acc,
    convert_loop h acc = (r <- convert_loop h [] ;; Ok (acc ++ r)).
Proof.
  induction h as [ | m rest IH ]; intros acc.
  - cbn. now rewrite app_nil_r.
  - rewrite !convert_loop_step.
    destruct (standardize m) as [ m' | e ]; cbn [bind]; [ | reflexivity ].
    rewrite (IH (acc ++ [m'])), (IH ([] ++ [m'])).
    destruct (convert_loop rest []) as [ r | e ]; cbn [bind]; [ | reflexivity ].
    now rewrite <- app_assoc.
Qed.

Lemma convert_nil : convert_to_standard_format [] = Ok [].
Proof. reflexivity. Qed.

Lemma convert_cons (m : pyval) (rest : list pyval) :
  convert_to_standard_format (m :: rest)
  = (m' <- standardize m ;;
     r <- convert_to_standard_format rest ;;
     Ok (m' :: r)).
Proof.
  unfold convert_to_standard_format.
  rewrite convert_loop_step.
  destruct (standardize m) as [ m' | e ]; cbn [bind]; [ | reflexivity ].
  now rewrite convert_loop_acc.
Qed.

Lemma standardize_plain (m : pyval) : plain m -> standardize m = Ok m.
Proof. unfold plain, standardize. now intros ->. Qed.

Lemma standardize_tagged (text : string) :
  standardize (create_guardrails_format text) = Ok (user_turn text).
Proof. reflexivity. Qed.

Lemma standardize_result_plain (m m' : pyval) :
  standardize m = Ok m' -> plain m'.
Proof.
  unfold standardize, plain.
  destruct (isinstance_dict m) eqn:D.
  - repeat match goal with
           | |- context [bind ?r _] =>
               lazymatch r with
               | getitem _ _ => destruct r
               | getitem0 _ => destruct r
               end; cbn [bind]; try discriminate
           end.
    now intros [= <-].
  - now intros [= <-].
Qed.

Lemma standardize_turn_like (m : pyval) :
  turn_like m -> exists m', standardize m = Ok m'.
Proof.
  intros [ P | [ text -> ] ].
  - exists m. now apply standardize_plain.
  - exists (user_turn text). reflexivity.
Qed.

Lemma convert_app (h1 h2 : list pyval) :
  convert_to_standard_format (h1 ++ h2)
  = (r1 <- convert_to_standard_format h1 ;;
     r2 <- convert_to_standard_format h2 ;;
     Ok (r1 ++ r2)).
Proof.
  induction h1 as [ | m rest IH ].
  - cbn [app]. rewrite convert_nil. cbn [bind].
    now destruct (convert_to_standard_format h2).
  - cbn [app]. rewrite !convert_cons, IH.
    destruct (standardize m); cbn [bind]; [ | reflexivity ].
    destruct (convert_to_standard_format rest); cbn [bind]; [ | reflexivity ].
    now destruct (convert_to_standard_format h2).
Qed.

Lemma convert_plain (h : list pyval) :
  Forall plain h -> convert_to_standard_format h = Ok h.
Proof.
  induction 1 as [ | m rest P _ IH ].
  - reflexivity.
  - now rewrite convert_cons, (standardize_plain _ P), IH.
Qed.

Lemma convert_related (h : list pyval) :
  forall h',
    convert_to_standard_format h = Ok h' ->
    Forall2 (fun m m' => standardize m = Ok m') h h'.
Proof.
  induction h as [ | m rest IH ]; intros h'.
  - rewrite convert_nil. intros [= <-]. constructor.
  - rewrite convert_cons.
    destruct (standardize m) as [ m' | ] eqn:S; cbn [bind]; [ | discriminate ].
    destruct (convert_to_standard_format rest) as [ r | ];
      cbn [bind]; [ | discriminate ].
    intros [= <-]. constructor; [ exact S | now apply IH ].
Qed.

Lemma convert_result_plain (h h' : list pyval) :
  convert_to_standard_format h = Ok h' -> Forall plain h'.
Proof.
  intros C. apply convert_related in C.
  induction C as [ | m m' rest rest' S _ IH ]; constructor.
  - eapply standardize_result_plain, S.
  - exact IH.
Qed.

Lemma convert_length (h h' : list pyval) :
  convert_to_standard_format h = Ok h' -> List.length h' = List.length h.
Proof.
  intros C. apply convert_related in C.
  induction C; cbn; congruence.
Qed.

Lemma convert_total (h : list pyval) :
  Forall turn_like h -> exists h', convert_to_standard_format h = Ok h'.
Proof.
  induction 1 as [ | m rest T _ [ r IH ] ].
  - now exists [].
  - destruct (standardize_turn_like _ T) as [ m' S ].
    exists (m' :: r). now rewrite convert_cons, S, IH.
Qed.

Lemma plain_turn_like (h : list pyval) : Forall plain h -> Forall turn_like h.
Proof. apply Forall_impl. intros m P. now left. Qed.

Lemma convert_nth_error (h : list pyval) :
  forall h' i m,
    convert_to_standard_format h = Ok h' ->
    nth_error h i = Some m ->
    exists m',
      nth_error h' i = Some m' /\ standardize m = Ok m' /\ (plain m -> m' = m).
Proof.
  intros h' i m C. apply convert_related in C. revert i.
  induction C as [ | x x' rest rest' S _ IH ]; intros i.
  - destruct i; discriminate.
  - destruct i as [ | i ]; cbn [nth_error].
    + intros [= ->]. exists x'. repeat split; [ exact S | ].
      intros P. rewrite (standardize_plain _ P) in S. congruence.
    + apply IH.
Qed.

(** C9. [convert_to_standard_format] keeps the length and the order of the
    transcript (entry [i] of the result is what the loop builds from entry
    [i] of the input), returns a transcript of plain entries unchanged, and
    is idempotent: running it on its own result changes nothing, and where
    the first run raises there is no result to run it on.  It does return
    on every transcript of plain entries and tagged user turns. *)
Theorem convert_to_standard_format_idempotent :
  (forall h h',
      convert_to_standard_format h = Ok h' ->
      List.length h' = List.length h
      /\ forall i m,
          nth_error h i = Some m ->
          exists m',
            nth_error h' i = Some m' /\ standardize m = Ok m'
            /\ (plain m -> m' = m))
  /\ (forall h, Forall plain h -> convert_to_standard_format h = Ok h)
  /\ (forall h,
        (h' <- convert_to_standard_format h ;; convert_to_standard_format h')
        = convert_to_standard_format h)
  /\ (forall h,
        Forall turn_like h -> exists h', convert_to_standard_format h = Ok h').
Proof.
  repeat split.
  - now apply convert_length.
  - intros i m. now apply convert_nth_error.
  - apply convert_plain.
  - intros h. destruct (convert_to_standard_format h) as [ h' | e ] eqn:C;
      cbn [bind]; [ | reflexivity ].
    apply convert_plain. eapply convert_result_plain, C.
  - apply convert_total.
Qed.

Lemma convert_to_standard_format_idempotent_witness :
  List.length [system_turn; user_turn "hi"]
  = List.length [system_turn; create_guardrails_format "hi"]
  /\ convert_to_standard_format [system_turn; user_turn "hi"]
     = Ok [system_turn; user_turn "hi"].
Proof.
  split.
  - apply (proj1 convert_to_standard_format_idempotent
             [system_turn; create_guardrails_format "hi"]
             [system_turn; user_turn "hi"] eq_refl).
  - apply (proj1 (proj2 convert_to_standard_format_idempotent)).
    repeat constructor.
Defined.

(** C7. Un-tagging the tagged turn built from [text] gives the pair
    ("user", text): the tagged turn has role "user", its content is a list
    of one wrapper whose guardContent/text/text is the raw text, and
    wherever the tagged turn stands in a transcript that
    [convert_to_standard_format] converts, the pair stands in the result. *)
Theorem convert_create_guardrails_format (text : string) :
  convert_to_standard_format [create_guardrails_format text]
  = Ok [user_turn text]
  /\ getitem (create_guardrails_format text) "role" = Ok (VStr "user")
  /\ (exists wrapper,
        getitem (create_guardrails_format text) "content"
        = Ok (VList [wrapper])
        /\ (g <- getitem wrapper "guardContent" ;;
            t <- getitem g "text" ;;
            getitem t "text") = Ok (VStr text))
  /\ (forall before after h',
        convert_to_standard_format
          (before ++ create_guardrails_format text :: after) = Ok h' ->
        nth_error h' (List.length before) = Some (user_turn text)).
Proof.
  split; [ reflexivity | ].
  split; [ reflexivity | ].
  split; [ eexists; split; reflexivity | ].
  intros before after h' C.
  destruct (convert_nth_error _ _ (List.length before)
              (create_guardrails_format text) C) as (m' & N & S & _).
  - rewrite nth_error_app2, Nat.sub_diag by lia. reflexivity.
  - rewrite standardize_tagged in S. congruence.
Qed.

Lemma convert_create_guardrails_format_witness :
  nth_error [system_turn; user_turn "hello"; assistant_turn (VStr "hi")] 1
  = Some (user_turn "hello").
Proof.
  apply (proj2 (proj2 (proj2 (convert_create_guardrails_format "hello")))
           [system_turn] [assistant_turn (VStr "hi")]).
  reflexivity.
Defined.

(** * Properties of the conversation loop *)

Lemma lower_nonempty (s : string) : lower s = "" -> s = "".
Proof. destruct s; [ reflexivity | discriminate ]. Qed.

Lemma strip_whitespace (line : string) :
  (forall c, In c (list_ascii_of_string line) -> isspace c = true) ->
  strip line = "".
Proof.
  unfold strip. induction line as [ | c rest IH ]; intros W.
  - reflexivity.
  - cbn [lstrip]. rewrite (W c) by now left.
    apply IH. intros c' I. apply W. now right.
Qed.

Section ChatProperties.

Variable llm_state : Type.
Variable llm_invoke : llm_state -> list pyval -> llm_state * result pyval.

Lemma emit_emit (s : session llm_state) (es es' : list event) :
  emit (emit s es) es' = emit s (es ++ es').
Proof. unfold emit. cbn. now rewrite <- app_assoc. Qed.

Lemma handler_raises (s : session llm_state) (e : exn) :
  handler s e = (emit s (error_report e), Uncaught attribute_error).
Proof. destruct e. reflexivity. Qed.

Lemma is_message_true (line : string) :
  lower (strip line) <> "quit" ->
  strip line <> "" ->
  lower (strip line) <> "debug_dump" ->
  is_message line = true.
Proof.
  intros Q E D. unfold is_message.
  now rewrite (proj2 (String.eqb_neq _ _) Q), (proj2 (String.eqb_neq _ _) E),
    (proj2 (String.eqb_neq _ _) D).
Qed.

Lemma is_message_inv (line : string) :
  is_message line = true ->
  lower (strip line) <> "quit"
  /\ strip line <> ""
  /\ lower (strip line) <> "debug_dump".
Proof.
  unfold is_message. intros M.
  apply andb_prop in M as [ M D ]. apply andb_prop in M as [ Q E ].
  repeat split; apply String.eqb_neq; now apply negb_true_iff.
Qed.

Lemma loop_body_message (s : session llm_state) (line : string) :
  is_message line = true ->
  loop_body llm_invoke s line
  = submit llm_invoke (emit s [Input "You: "]) (strip line).
Proof.
  intros M. apply is_message_inv in M as (Q & E & D).
  unfold loop_body.
  now rewrite (proj2 (String.eqb_neq _ _) Q), (proj2 (String.eqb_neq _ _) E),
    (proj2 (String.eqb_neq _ _) D).
Qed.

Lemma loop_body_iteration (s : session llm_state) (line : string) :
  iteration llm_invoke s line (loop_body llm_invoke s line).
Proof.
  destruct (String.eqb_spec (lower (strip line)) "quit") as [ Q | Q ].
  { unfold loop_body. rewrite Q. cbn [String.eqb Ascii.eqb Bool.eqb].
    rewrite emit_emit. now apply it_quit. }
  destruct (String.eqb_spec (strip line) "") as [ E | E ].
  { unfold loop_body. rewrite E. cbn [lower String.eqb].
    rewrite emit_emit. now apply it_empty. }
  destruct (String.eqb_spec (lower (strip line)) "debug_dump") as [ D | D ].
  { unfold loop_body.
    rewrite (proj2 (String.eqb_neq _ _) Q), (proj2 (String.eqb_neq _ _) E), D.
    cbn [String.eqb Ascii.eqb Bool.eqb].
    rewrite emit_emit. now apply it_dump. }
  pose proof (is_message_true _ Q E D) as M.
  rewrite (loop_body_message _ _ M). unfold submit.
  cbn [emit conversation_history llm events set_history].
  destruct (convert_to_standard_format (conversation_history s))
    as [ standard | e ] eqn:C.
  - destruct (llm_invoke (llm s)
                (standard ++ [create_guardrails_format (strip line)]))
      as [ st [ content | e ] ] eqn:L.
    + unfold emit; cbn [conversation_history llm events].
      rewrite <- !app_assoc. now apply it_success.
    + rewrite handler_raises. unfold emit; cbn [conversation_history llm events].
      rewrite <- !app_assoc. now apply it_invoke_fails.
  - rewrite handler_raises, emit_emit. now apply it_convert_fails.
Qed.

Lemma loop_body_success (s : session llm_state) (line : string)
      (standard : list pyval) (st : llm_state) (content : pyval) :
  is_message line = true ->
  convert_to_standard_format (conversation_history s) = Ok standard ->
  llm_invoke (llm s) (standard ++ [create_guardrails_format (strip line)])
  = (st, Ok content) ->
  loop_body llm_invoke s line
  = (mkSession
       (standard
        ++ [create_guardrails_format (strip line); assistant_turn content])
       st
       (events s
        ++ [Input "You: ";
            Invoke (standard ++ [create_guardrails_format (strip line)]);
            PrintAssistant content]),
     AwaitingInput).
Proof.
  intros M C L. rewrite (loop_body_message _ _ M). unfold submit.
  cbn [emit conversation_history llm events set_history].
  rewrite C, L. unfold emit; cbn [conversation_history llm events].
  now rewrite <- !app_assoc.
Qed.

Lemma loop_body_failure (s : session llm_state) (line : string)
      (standard : list pyval) (st : llm_state) (e : exn) :
  is_message line = true ->
  convert_to_standard_format (conversation_history s) = Ok standard ->
  llm_invoke (llm s) (standard ++ [create_guardrails_format (strip line)])
  = (st, Raise e) ->
  loop_body llm_invoke s line
  = (mkSession (standard ++ [create_guardrails_format (strip line)]) st
       (events s
        ++ Input "You: "
           :: Invoke (standard ++ [create_guardrails_format (strip line)])
           :: error_report e),
     Uncaught attribute_error).
Proof.
  intros M C L. rewrite (loop_body_message _ _ M). unfold submit.
  cbn [emit conversation_history llm events set_history].
  rewrite C, L, handler_raises. unfold emit; cbn [conversation_history llm events].
  now rewrite <- !app_assoc.
Qed.

(** ** Invariants of the transcript and of the calls *)

Lemma convert_keeps_system (h standard : list pyval) :
  nth_error h 0 = Some system_turn ->
  convert_to_standard_format h = Ok standard ->
  nth_error standard 0 = Some system_turn.
Proof.
  intros N C.
  destruct (convert_nth_error _ _ _ _ C N) as (m' & N' & _ & P).
  rewrite N', P; reflexivity.
Qed.

Lemma nth_error_0_app (h extra : list pyval) (m : pyval) :
  nth_error h 0 = Some m -> nth_error (h ++ extra) 0 = Some m.
Proof. destruct h; [ discriminate | exact (fun H => H) ]. Qed.

Lemma submitted_transcript_ok (h standard extra : list pyval) :
  transcript_ok h ->
  convert_to_standard_format h = Ok standard ->
  Forall turn_like extra ->
  transcript_ok (standard ++ extra).
Proof.
  intros [ N _ ] C X. split.
  - apply nth_error_0_app. eapply convert_keeps_system; eassumption.
  - apply Forall_app. split; [ | exact X ].
    eapply plain_turn_like, convert_result_plain, C.
Qed.

Lemma iteration_transcript_ok (s : session llm_state) (line : string)
      (r : session llm_state * status) :
  iteration llm_invoke s line r ->
  transcript_ok (conversation_history s) ->
  transcript_ok (conversation_history (fst r)).
Proof.
  intros I T.
  destruct I; cbn [fst emit conversation_history]; try exact T.
  - eapply submitted_transcript_ok; [ exact T | eassumption | ].
    apply Forall_cons; [ right; now eexists | apply Forall_nil ].
  - eapply submitted_transcript_ok; [ exact T | eassumption | ].
    apply Forall_cons; [ right; now eexists | ].
    apply Forall_cons; [ now left | apply Forall_nil ].
Qed.

Lemma run_transcript_ok (lines : list string) :
  forall s : session llm_state,
    transcript_ok (conversation_history s) ->
    transcript_ok (conversation_history (fst (run llm_invoke s lines))).
Proof.
  induction lines as [ | line rest IH ]; intros s T; cbn [run].
  - exact T.
  - pose proof (iteration_transcript_ok _ _ _ (loop_body_iteration s line) T)
      as T'.
    destruct (loop_body llm_invoke s line) as [ s' [ | | e ] ];
      cbn [fst] in *; auto.
Qed.

Lemma start_transcript_ok (st : llm_state) :
  transcript_ok (conversation_history (start st)).
Proof.
  split; [ reflexivity | ].
  apply Forall_cons; [ now left | apply Forall_nil ].
Qed.

Lemma invokes_ok_app (es es' : list event) :
  invokes_ok es -> invokes_ok es' -> invokes_ok (es ++ es').
Proof.
  intros A B messages I. apply in_app_or in I as [ I | I ]; auto.
Qed.

Lemma converted_submitted_ok (h standard : list pyval) (text : string) :
  convert_to_standard_format h = Ok standard ->
  submitted_ok (standard ++ [create_guardrails_format text]).
Proof.
  intros C. exists standard, text. split; [ reflexivity | ].
  eapply convert_result_plain, C.
Qed.

Lemma iteration_invokes_ok (s : session llm_state) (line : string)
      (r : session llm_state * status) :
  iteration llm_invoke s line r ->
  invokes_ok (events s) ->
  invokes_ok (events (fst r)).
Proof.
  intros I V.
  destruct I as [ | | | [ ] | ? ? [ ] | ];
    cbn [fst emit events error_report];
    (apply invokes_ok_app; [ exact V | ]);
    intros messages J; cbn [In] in J;
    repeat (destruct J as [ J | J ]; try discriminate J);
    try contradiction;
    injection J as <-; eapply converted_submitted_ok; eassumption.
Qed.

Lemma run_invokes_ok (lines : list string) :
  forall s : session llm_state,
    invokes_ok (events s) ->
    invokes_ok (events (fst (run llm_invoke s lines))).
Proof.
  induction lines as [ | line rest IH ]; intros s V; cbn [run].
  - exact V.
  - pose proof (iteration_invokes_ok _ _ _ (loop_body_iteration s line) V)
      as V'.
    destruct (loop_body llm_invoke s line) as [ s' [ | | e ] ];
      cbn [fst] in *; auto.
Qed.

Lemma filter_plain (h : list pyval) :
  Forall plain h -> filter isinstance_dict h = [].
Proof.
  induction 1 as [ | m rest P _ IH ]; [ reflexivity | ].
  cbn [filter]. now rewrite P.
Qed.

Lemma submitted_ok_one_tagged (messages : list pyval) :
  submitted_ok messages ->
  exists text,
    filter isinstance_dict messages = [create_guardrails_format text]
    /\ last messages system_turn = create_guardrails_format text.
Proof.
  intros (earlier & text & -> & P). exists text. split.
  - now rewrite filter_app, (filter_plain _ P).
  - apply last_last.
Qed.

(** C4. Whenever the loop calls the collaborator, the sequence it hands
    over has exactly one tagged element, which is its last element; every
    element before it is plain. *)
Theorem invoke_one_tagged_last (st : llm_state) (lines : list string)
      (messages : list pyval) :
  In (Invoke messages)
     (events (fst (run_chat_interface llm_invoke st lines))) ->
  exists earlier text,
    messages = earlier ++ [create_guardrails_format text]
    /\ Forall plain earlier
    /\ filter isinstance_dict messages = [create_guardrails_format text]
    /\ last messages system_turn = create_guardrails_format text.
Proof.
  intros I.
  assert (submitted_ok messages) as S.
  { revert messages I. apply run_invokes_ok.
    intros messages [ [=] | [ ] ]. }
  destruct S as (earlier & text & -> & P).
  exists earlier, text. repeat split; [ exact P | | apply last_last ].
  now rewrite filter_app, (filter_plain _ P).
Qed.

(** ** Sequences of successful submissions *)

Lemma exchanges_run (s s' : session llm_state) (xs : list (string * pyval)) :
  exchanges llm_invoke s xs s' ->
  run llm_invoke s (map fst xs) = (s', AwaitingInput).
Proof.
  induction 1 as [ s | s line content standard st rest s' M C L _ IH ].
  - reflexivity.
  - cbn [map fst run]. rewrite (loop_body_success _ _ _ _ _ M C L) in *.
    exact IH.
Qed.

Lemma exchanges_history (s s' : session llm_state)
      (xs : list (string * pyval)) :
  exchanges llm_invoke s xs s' ->
  forall standard,
    convert_to_standard_format (conversation_history s) = Ok standard ->
    xs <> [] ->
    conversation_history s' = standard ++ shown xs.
Proof.
  induction 1 as [ s | s line content standard st rest s' M C L X IH ];
    intros standard' C' N.
  - contradiction.
  - rewrite C in C'. injection C' as <-.
    rewrite (loop_body_success _ _ _ _ _ M C L) in *. cbn [fst] in *.
    destruct rest as [ | x rest ].
    + inversion X; subst. reflexivity.
    + rewrite (IH (standard ++ [user_turn (strip line); assistant_turn content])).
      * cbn [shown]. now rewrite <- app_assoc.
      * cbn [conversation_history]. rewrite convert_app.
        rewrite (convert_plain standard)
          by (eapply convert_result_plain, C).
        reflexivity.
      * discriminate.
Qed.

Lemma exchanges_from_start (st : llm_state) (s : session llm_state)
      (xs : list (string * pyval)) :
  exchanges llm_invoke (start st) xs s ->
  conversation_history s = system_turn :: shown xs.
Proof.
  intros X. destruct xs as [ | x xs ].
  - inversion X; subst. reflexivity.
  - now apply (exchanges_history _ _ _ X [system_turn]).
Qed.

Lemma exchanges_transcript_ok (s s' : session llm_state)
      (xs : list (string * pyval)) :
  exchanges llm_invoke s xs s' ->
  transcript_ok (conversation_history s) ->
  transcript_ok (conversation_history s').
Proof.
  intros X T. apply exchanges_run in X.
  pose proof (run_transcript_ok (map fst xs) s T) as T'.
  now rewrite X in T'.
Qed.

Lemma shown_length (xs : list (string * pyval)) :
  List.length (shown xs) = 2 * List.length xs.
Proof.
  induction xs as [ | [ line content ] rest IH ]; [ reflexivity | ].
  destruct rest as [ | x rest ]; [ reflexivity | ].
  change (S (S (List.length (shown (x :: rest))))
          = 2 * S (List.length (x :: rest))).
  rewrite IH. lia.
Qed.

Lemma shown_snoc (older : list (string * pyval)) (line : string)
      (content : pyval) :
  shown (older ++ [(line, content)])
  = all_plain older
    ++ [create_guardrails_format (strip line); assistant_turn content].
Proof.
  induction older as [ | [ line' content' ] rest IH ]; [ reflexivity | ].
  cbn [app shown]. rewrite IH.
  destruct (rest ++ [(line, content)]) eqn:E.
  - now destruct rest.
  - reflexivity.
Qed.

Lemma all_plain_plain (xs : list (string * pyval)) : Forall plain (all_plain xs).
Proof.
  induction xs as [ | x rest IH ]; [ constructor | ].
  cbn [all_plain flat_map app].
  apply Forall_cons; [ reflexivity | ].
  apply Forall_cons; [ reflexivity | exact IH ].
Qed.

Lemma convert_shown (xs : list (string * pyval)) :
  convert_to_standard_format (shown xs) = Ok (all_plain xs).
Proof.
  induction xs as [ | [ line content ] rest IH ]; [ reflexivity | ].
  destruct rest as [ | x rest ]; [ reflexivity | ].
  change (shown ((line, content) :: x :: rest))
    with (user_turn (strip line) :: assistant_turn content :: shown (x :: rest)).
  rewrite !convert_cons, IH. reflexivity.
Qed.

Lemma loop_body_dump (s : session llm_state) (line : string) :
  lower (strip line) = "debug_dump" ->
  loop_body llm_invoke s line
  = (emit s [Input "You: "; Print "DEBUG_DUMP CALLED";
             PrintHistory (conversation_history s)], AwaitingInput).
Proof.
  intros D. unfold loop_body. rewrite D.
  destruct (String.eqb_spec (strip line) "") as [ E | _ ].
  - rewrite E in D. discriminate.
  - cbn [String.eqb Ascii.eqb Bool.eqb]. now rewrite emit_emit.
Qed.

Lemma loop_body_quit (s : session llm_state) (line : string) :
  lower (strip line) = "quit" ->
  loop_body llm_invoke s line
  = (emit s [Input "You: "; Print "Chat ended."], ChatEnded).
Proof.
  intros Q. unfold loop_body. rewrite Q.
  cbn [String.eqb Ascii.eqb Bool.eqb]. now rewrite emit_emit.
Qed.

Lemma loop_body_empty (s : session llm_state) (line : string) :
  strip line = "" ->
  loop_body llm_invoke s line
  = (emit s [Input "You: "; Print "Please enter a message."], AwaitingInput).
Proof.
  intros E. unfold loop_body. rewrite E.
  cbn [lower String.eqb]. now rewrite emit_emit.
Qed.

(** C3, as the code has it.  After any sequence of successful submissions
    the debug dump prints the stored transcript as it is: the system turn
    and two turns per submission, in insertion order, all plain except the
    newest user turn, which is still tagged; the next submission, or
    [convert_to_standard_format] on the dump, turns it into a pair. *)
Theorem dump_after_successful_submissions (st : llm_state)
      (xs : list (string * pyval)) (s : session llm_state)
      (dump_line : string) :
  exchanges llm_invoke (start st) xs s ->
  lower (strip dump_line) = "debug_dump" ->
  loop_body llm_invoke s dump_line
  = (emit s [Input "You: "; Print "DEBUG_DUMP CALLED";
             PrintHistory (system_turn :: shown xs)], AwaitingInput)
  /\ List.length (system_turn :: shown xs) = 1 + 2 * List.length xs
  /\ (forall older line content,
        xs = older ++ [(line, content)] ->
        system_turn :: shown xs
        = system_turn :: all_plain older
          ++ [create_guardrails_format (strip line); assistant_turn content]
        /\ Forall plain (system_turn :: all_plain older)
        /\ filter isinstance_dict (system_turn :: shown xs)
           = [create_guardrails_format (strip line)])
  /\ convert_to_standard_format (system_turn :: shown xs)
     = Ok (system_turn :: all_plain xs)
  /\ Forall plain (system_turn :: all_plain xs).
Proof.
  intros X D. repeat split.
  - rewrite (loop_body_dump _ _ D). now rewrite (exchanges_from_start _ _ _ X).
  - cbn [List.length]. rewrite shown_length. lia.
  - subst xs. now rewrite shown_snoc.
  - apply Forall_cons; [ reflexivity | apply all_plain_plain ].
  - subst xs. rewrite shown_snoc. cbn [filter isinstance_dict system_turn].
    rewrite filter_app, (filter_plain _ (all_plain_plain older)).
    reflexivity.
  - rewrite convert_cons, convert_shown. reflexivity.
  - apply Forall_cons; [ reflexivity | apply all_plain_plain ].
Qed.

(** C5. Each successful submission makes the transcript longer by exactly
    two entries, the (tagged) user turn and then the assistant turn; after
    [n] of them from the start it has [1 + 2 n] entries; and whatever lines
    the operator types and whatever the collaborator does, entry 0 stays
    the system turn. *)
Theorem successful_submission_grows_by_two :
  (forall st xs s line content s',
      exchanges llm_invoke (start st) xs s ->
      exchanges llm_invoke s [(line, content)] s' ->
      List.length (conversation_history s')
      = List.length (conversation_history s) + 2
      /\ skipn (List.length (conversation_history s)) (conversation_history s')
         = [create_guardrails_format (strip line); assistant_turn content]
      /\ List.length (conversation_history s) = 1 + 2 * List.length xs
      /\ nth_error (conversation_history s) 0 = Some system_turn
      /\ nth_error (conversation_history s') 0 = Some system_turn)
  /\ (forall st lines,
        nth_error
          (conversation_history (fst (run_chat_interface llm_invoke st lines)))
          0
        = Some system_turn).
Proof.
  split.
  - intros st xs s line content s' X Y.
    pose proof (exchanges_transcript_ok _ _ _ X (start_transcript_ok st)) as T.
    pose proof (exchanges_transcript_ok _ _ _ Y T) as T'.
    pose proof (exchanges_from_start _ _ _ X) as H.
    inversion Y as [ | ? ? ? standard st' ? ? M C L Z ]; subst.
    rewrite (loop_body_success _ _ _ _ _ M C L) in Z. cbn [fst] in Z.
    inversion Z; subst. cbn [conversation_history] in *.
    pose proof (convert_length _ _ C) as E.
    repeat split.
    + rewrite length_app, E. reflexivity.
    + rewrite <- E, skipn_app, Nat.sub_diag, skipn_all. reflexivity.
    + rewrite H. cbn [List.length]. rewrite shown_length. lia.
    + apply T.
    + apply T'.
  - intros st lines.
    apply (run_transcript_ok lines (start st) (start_transcript_ok st)).
Qed.

(** C6. A line that is empty after trimming (in particular one made of
    white space only) makes no call to the collaborator and leaves the
    transcript as it is: the loop prints its request for a message and goes
    back to prompting with the rest of the input. *)
Theorem empty_input_is_skipped (s : session llm_state) (line : string) :
  strip line = "" ->
  loop_body llm_invoke s line
  = (emit s [Input "You: "; Print "Please enter a message."], AwaitingInput)
  /\ conversation_history (fst (loop_body llm_invoke s line))
     = conversation_history s
  /\ llm (fst (loop_body llm_invoke s line)) = llm s
  /\ (forall messages,
        In (Invoke messages) (events (fst (loop_body llm_invoke s line))) ->
        In (Invoke messages) (events s))
  /\ (forall rest,
        run llm_invoke s (line :: rest)
        = run llm_invoke
            (emit s [Input "You: "; Print "Please enter a message."]) rest).
Proof.
  intros E. rewrite (loop_body_empty _ _ E).
  repeat split.
  - intros messages I. cbn [fst emit events] in I.
    apply in_app_or in I as [ I | [ [=] | [ [=] | [ ] ] ] ]. exact I.
  - intros rest. cbn [run]. now rewrite (loop_body_empty _ _ E).
Qed.

(** C8. The debug dump prints the transcript exactly as it is stored,
    calls nothing, and leaves the transcript and the collaborator as they
    were. *)
Theorem debug_dump_is_read_only (s : session llm_state) (line : string) :
  lower (strip line) = "debug_dump" ->
  loop_body llm_invoke s line
  = (emit s [Input "You: "; Print "DEBUG_DUMP CALLED";
             PrintHistory (conversation_history s)], AwaitingInput)
  /\ conversation_history (fst (loop_body llm_invoke s line))
     = conversation_history s
  /\ llm (fst (loop_body llm_invoke s line)) = llm s
  /\ (forall messages,
        In (Invoke messages) (events (fst (loop_body llm_invoke s line))) ->
        In (Invoke messages) (events s)).
Proof.
  intros D. rewrite (loop_body_dump _ _ D).
  repeat split.
  intros messages I. cbn [fst emit events] in I.
  apply in_app_or in I as [ I | [ [=] | [ [=] | [ [=] | [ ] ] ] ] ]. exact I.
Qed.

(** C10. Commands are recognised on the trimmed, lowercased line.  A line
    that reads "quit" that way ends the session and one that reads
    "debug_dump" dumps the transcript; neither is appended to the
    transcript nor sent to the collaborator.  "QUIT" and "  Quit " are such
    quit lines. *)
Theorem commands_trimmed_case_insensitive (s : session llm_state)
      (line : string) :
  (lower (strip line) = "quit" ->
   snd (loop_body llm_invoke s line) = ChatEnded
   /\ (forall rest,
         run llm_invoke s (line :: rest)
         = (emit s [Input "You: "; Print "Chat ended."], ChatEnded)))
  /\ (lower (strip line) = "debug_dump" ->
      loop_body llm_invoke s line
      = (emit s [Input "You: "; Print "DEBUG_DUMP CALLED";
                 PrintHistory (conversation_history s)], AwaitingInput))
  /\ (lower (strip line) = "quit" \/ lower (strip line) = "debug_dump" ->
      is_message line = false
      /\ conversation_history (fst (loop_body llm_invoke s line))
         = conversation_history s
      /\ llm (fst (loop_body llm_invoke s line)) = llm s
      /\ (forall messages,
            In (Invoke messages) (events (fst (loop_body llm_invoke s line))) ->
            In (Invoke messages) (events s)))
  /\ lower (strip "QUIT") = "quit"
  /\ lower (strip "  Quit ") = "quit"
  /\ lower (strip " Debug_Dump") = "debug_dump".
Proof.
  split; [ | split; [ | split ] ].
  - intros Q. rewrite (loop_body_quit _ _ Q). split; [ reflexivity | ].
    intros rest. cbn [run]. now rewrite (loop_body_quit _ _ Q).
  - apply loop_body_dump.
  - intros [ Q | D ].
    + rewrite (loop_body_quit _ _ Q). unfold is_message. rewrite Q.
      repeat split.
      intros messages I. cbn [fst emit events] in I.
      apply in_app_or in I as [ I | [ [=] | [ [=] | [ ] ] ] ]. exact I.
    + rewrite (loop_body_dump _ _ D). unfold is_message. rewrite D.
      repeat split; [ now rewrite andb_false_r | ].
      intros messages I. cbn [fst emit events] in I.
      apply in_app_or in I as [ I | [ [=] | [ [=] | [ [=] | [ ] ] ] ] ].
      exact I.
  - repeat split.
Qed.

Lemma run_stops_when_uncaught (s : session llm_state) (line : string)
      (rest : list string) (e : exn) :
  snd (loop_body llm_invoke s line) = Uncaught e ->
  run llm_invoke s (line :: rest) = loop_body llm_invoke s line.
Proof.
  intros U. cbn [run].
  destruct (loop_body llm_invoke s line) as [ s' st ]. cbn [snd] in U.
  now subst st.
Qed.

(** Whatever exception the collaborator raises, the handler itself raises:
    the session ends with the tagged turn still in the transcript. *)
Lemma failed_submission_uncaught (s : session llm_state) (line : string)
      (standard : list pyval) (st : llm_state) (e : exn)
      (rest : list string) :
  is_message line = true ->
  convert_to_standard_format (conversation_history s) = Ok standard ->
  llm_invoke (llm s) (standard ++ [create_guardrails_format (strip line)])
  = (st, Raise e) ->
  snd (run llm_invoke s (line :: rest)) = Uncaught attribute_error
  /\ conversation_history (fst (run llm_invoke s (line :: rest)))
     = standard ++ [create_guardrails_format (strip line)].
Proof.
  intros M C L.
  rewrite (run_stops_when_uncaught _ _ _ attribute_error);
    rewrite (loop_body_failure _ _ _ _ _ M C L); split; reflexivity.
Qed.

End ChatProperties.

(** * The scenarios of the notebook, on a scripted collaborator *)

Lemma two_exchanges_succeed :
  exchanges scripted_invoke
    (start [Ok checking_answer; Ok savings_answer])
    two_exchanges after_two_exchanges.
Proof.
  eapply exchanges_cons; [ reflexivity | reflexivity | reflexivity | ].
  eapply exchanges_cons; [ reflexivity | reflexivity | reflexivity | ].
  apply exchanges_nil.
Qed.

Lemma invoke_one_tagged_last_witness :
  exists earlier text,
    [system_turn; create_guardrails_format "What is a checking account?"]
    = earlier ++ [create_guardrails_format text]
    /\ Forall plain earlier
    /\ filter isinstance_dict
         [system_turn; create_guardrails_format "What is a checking account?"]
       = [create_guardrails_format text]
    /\ last [system_turn; create_guardrails_format "What is a checking account?"]
         system_turn
       = create_guardrails_format text.
Proof.
  apply (invoke_one_tagged_last _ scripted_invoke [Ok checking_answer]
           ["What is a checking account?"]).
  cbn. right. right. left. reflexivity.
Defined.

(** C3, as stated, fails: after two successful submissions the dump has
    five turns, but the newest user turn (entry 3) is still a tagged dict;
    after one successful submission the user turn (entry 1) is tagged. *)
Lemma dump_shows_tagged_turn :
  (exists h,
      In (PrintHistory h)
         (events
            (fst (run_scripted [Ok checking_answer; Ok savings_answer]
                    (map fst two_exchanges ++ ["debug_dump"]))))
      /\ List.length h = 5
      /\ nth_error h 3 = Some (create_guardrails_format "And a savings account?")
      /\ ~ Forall plain h)
  /\ (exists h,
        In (PrintHistory h)
           (events
              (fst (run_scripted [Ok checking_answer]
                      ["What is a checking account?"; "debug_dump"])))
        /\ List.length h = 3
        /\ nth_error h 1
           = Some (create_guardrails_format "What is a checking account?")
        /\ ~ Forall plain h).
Proof.
  split.
  - eexists. split; [ | split; [ | split ] ].
    + cbn. do 9 right. left. reflexivity.
    + reflexivity.
    + reflexivity.
    + intros F. inversion F as [ | ? ? _ F1 ]; subst.
      inversion F1 as [ | ? ? _ F2 ]; subst.
      inversion F2 as [ | ? ? _ F3 ]; subst.
      inversion F3 as [ | ? ? P _ ]; subst. discriminate P.
  - eexists. split; [ | split; [ | split ] ].
    + cbn. do 6 right. left. reflexivity.
    + reflexivity.
    + reflexivity.
    + intros F. inversion F as [ | ? ? _ F1 ]; subst.
      inversion F1 as [ | ? ? P _ ]; subst. discriminate P.
Qed.

Lemma dump_after_successful_submissions_witness :
  loop_body scripted_invoke after_two_exchanges " DEBUG_DUMP "
  = (emit after_two_exchanges
       [Input "You: "; Print "DEBUG_DUMP CALLED";
        PrintHistory (system_turn :: shown two_exchanges)], AwaitingInput)
  /\ List.length (system_turn :: shown two_exchanges) = 5
  /\ convert_to_standard_format (system_turn :: shown two_exchanges)
     = Ok (system_turn :: all_plain two_exchanges).
Proof.
  destruct (dump_after_successful_submissions _ scripted_invoke _ _ _
              " DEBUG_DUMP " two_exchanges_succeed eq_refl)
    as (D & L & _ & C & _).
  exact (conj D (conj L C)).
Defined.

Lemma successful_submission_grows_by_two_witness :
  List.length (conversation_history after_two_exchanges)
  = List.length
      (conversation_history (start [Ok checking_answer; Ok savings_answer]))
    + 2 + 2.
Proof.
  pose (s1 := fst (loop_body scripted_invoke
                     (start [Ok checking_answer; Ok savings_answer])
                     "What is a checking account?")).
  assert (exchanges scripted_invoke
            (start [Ok checking_answer; Ok savings_answer])
            [("What is a checking account?", checking_answer)] s1) as X1.
  { eapply exchanges_cons; [ reflexivity | reflexivity | reflexivity | ].
    apply exchanges_nil. }
  assert (exchanges scripted_invoke s1
            [("  And a savings account? ", savings_answer)]
            after_two_exchanges) as X2.
  { eapply exchanges_cons; [ reflexivity | reflexivity | reflexivity | ].
    apply exchanges_nil. }
  destruct (proj1 (successful_submission_grows_by_two _ scripted_invoke)
              _ _ _ _ _ _ X1 X2) as (G & _).
  rewrite G. reflexivity.
Defined.

Lemma empty_input_is_skipped_witness :
  conversation_history
    (fst (loop_body scripted_invoke after_two_exchanges "   "))
  = conversation_history after_two_exchanges
  /\ llm (fst (loop_body scripted_invoke after_two_exchanges "   "))
     = llm after_two_exchanges.
Proof.
  destruct (empty_input_is_skipped _ scripted_invoke after_two_exchanges "   "
              eq_refl) as (_ & H & L & _).
  exact (conj H L).
Defined.

Lemma debug_dump_is_read_only_witness :
  conversation_history
    (fst (loop_body scripted_invoke after_two_exchanges "debug_dump"))
  = conversation_history after_two_exchanges
  /\ llm (fst (loop_body scripted_invoke after_two_exchanges "debug_dump"))
     = llm after_two_exchanges.
Proof.
  destruct (debug_dump_is_read_only _ scripted_invoke after_two_exchanges
              "debug_dump" eq_refl) as (_ & H & L & _).
  exact (conj H L).
Defined.

Lemma commands_trimmed_case_insensitive_witness :
  snd (loop_body scripted_invoke after_two_exchanges "  Quit ") = ChatEnded.
Proof.
  apply (proj1 (commands_trimmed_case_insensitive _ scripted_invoke
                  after_two_exchanges "  Quit ")).
  reflexivity.
Defined.

(** C1, on the code.  The collaborator blocks the first submission.  The
    handler reports the error, then calls a method that [list] does not
    have: the tagged turn stays in the transcript, which is no longer the
    transcript before the call, and the AttributeError leaves the function. *)
Theorem blocked_submission_is_not_rolled_back :
  run_scripted [blocked] [stock_question]
  = (mkSession
       [system_turn; create_guardrails_format stock_question]
       []
       [Print "Chat started. Type 'quit' to exit.";
        Input "You: ";
        Invoke [system_turn; create_guardrails_format stock_question];
        Print "Error: Guardrail blocked the request";
        Print "Please try again."],
     Uncaught attribute_error)
  /\ conversation_history (fst (run_scripted [blocked] [stock_question]))
     <> conversation_history (start [blocked]).
Proof. split; [ reflexivity | discriminate ]. Qed.

(** C2, on the code.  After the blocked submission the message is printed,
    but the session is over: the next line is never read (one [Input] event
    only), the collaborator is not called for it, and the run ends with the
    uncaught AttributeError although the operator never typed quit. *)
Theorem blocked_submission_ends_session :
  run_scripted [blocked; Ok checking_answer]
    [stock_question; "What is a checking account?"]
  = (mkSession
       [system_turn; create_guardrails_format stock_question]
       [Ok checking_answer]
       [Print "Chat started. Type 'quit' to exit.";
        Input "You: ";
        Invoke [system_turn; create_guardrails_format stock_question];
        Print "Error: Guardrail blocked the request";
        Print "Please try again."],
     Uncaught attribute_error)
  /\ ~ In (Invoke [system_turn;
                   create_guardrails_format "What is a checking account?"])
         (events
            (fst (run_scripted [blocked; Ok checking_answer]
                    [stock_question; "What is a checking account?"]))).
Proof.
  split; [ reflexivity | ].
  cbn. intros I.
  repeat (destruct I as [ I | I ]; [ discriminate I | ]).
  exact I.
Qed.

(** * Further properties of [convert_to_standard_format] *)

Lemma convert_raise_at (before r : list pyval) (m : pyval) (e : exn)
      (after : list pyval) :
  convert_to_standard_format before = Ok r ->
  standardize m = Raise e ->
  convert_to_standard_format (before ++ m :: after) = Raise e.
Proof.
  intros B S. now rewrite convert_app, B, convert_cons, S.
Qed.


(** X2. Converting a concatenation is converting the parts and
    concatenating: it raises when a part raises, the first part's exception
    first. *)
Theorem convert_concatenation (h1 h2 : list pyval) :
  convert_to_standard_format (h1 ++ h2)
  = match convert_to_standard_format h1 with
    | Raise e => Raise e
    | Ok r1 =>
        match convert_to_standard_format h2 with
        | Raise e => Raise e
        | Ok r2 => Ok (r1 ++ r2)
        end
    end.
Proof.
  rewrite convert_app.
  destruct (convert_to_standard_format h1); [ | reflexivity ].
  now destruct (convert_to_standard_format h2).
Qed.

(** X3. A dict entry without the key "role" makes the whole call raise
    KeyError 'role', and one with "role" but without "content" makes it
    raise KeyError 'content', wherever the entry stands after entries that
    convert and whatever follows it: no partial list is returned. *)
Theorem convert_missing_key (before r after : list pyval)
      (entries : list (string * pyval)) :
  convert_to_standard_format before = Ok r ->
  (dict_lookup "role" entries = None ->
   convert_to_standard_format (before ++ VDict entries :: after)
   = Raise (Exn "KeyError" "'role'"))
  /\ (dict_lookup "role" entries <> None ->
      dict_lookup "content" entries = None ->
      convert_to_standard_format (before ++ VDict entries :: after)
      = Raise (Exn "KeyError" "'content'")).
Proof.
  intros B. split.
  - intros R. apply (convert_raise_at _ _ _ _ _ B).
    unfold standardize. cbn [isinstance_dict getitem]. now rewrite R.
  - intros R K. apply (convert_raise_at _ _ _ _ _ B).
    unfold standardize. cbn [isinstance_dict getitem].
    destruct (dict_lookup "role" entries); [ | contradiction ].
    cbn [bind]. now rewrite K.
Qed.

(** X4. A dict message in the plain chat form, whose "content" is a
    string, is not converted: the call raises TypeError when the string is
    not empty and IndexError when it is. *)
Theorem convert_string_content_raises (before r after : list pyval)
      (entries : list (string * pyval)) (role : pyval) (text : string) :
  convert_to_standard_format before = Ok r ->
  dict_lookup "role" entries = Some role ->
  dict_lookup "content" entries = Some (VStr text) ->
  convert_to_standard_format (before ++ VDict entries :: after)
  = Raise (if String.eqb text ""
           then Exn "IndexError" "string index out of range"
           else Exn "TypeError" "string indices must be integers, not 'str'").
Proof.
  intros B R K. apply (convert_raise_at _ _ _ _ _ B).
  unfold standardize. cbn [isinstance_dict getitem]. rewrite R, K.
  now destruct text.
Qed.

(** X5. For a dict entry only the role and the first content block count:
    the role is carried over as it is (whatever it is), the text is the
    guardContent/text/text of the first block, and further blocks and
    further keys are dropped. *)
Theorem convert_uses_first_block (before r after after' : list pyval)
      (entries : list (string * pyval)) (role text : pyval)
      (others : list pyval) :
  convert_to_standard_format before = Ok r ->
  convert_to_standard_format after = Ok after' ->
  dict_lookup "role" entries = Some role ->
  dict_lookup "content" entries = Some (VList (guard_block text :: others)) ->
  convert_to_standard_format (before ++ VDict entries :: after)
  = Ok (r ++ VTuple [role; text] :: after').
Proof.
  intros B A R K.
  rewrite convert_app, B, convert_cons, A.
  unfold standardize. cbn [isinstance_dict getitem]. rewrite R, K.
  reflexivity.
Qed.

(** * Further properties of trimming *)

Lemma lstrip_head (s : string) (c : ascii) (rest : string) :
  lstrip s = String c rest -> isspace c = false.
Proof.
  induction s as [ | a s IH ]; cbn [lstrip]; [ discriminate | ].
  destruct (isspace a) eqn:W; [ exact IH | ].
  now intros [= <- _].
Qed.

Lemma rstrip_head (c : ascii) (rest : string) :
  isspace c = false -> exists kept, rstrip (String c rest) = String c kept.
Proof.
  intros W. cbn [rstrip]. destruct (rstrip rest).
  - rewrite W. now eexists.
  - now eexists.
Qed.

Lemma rstrip_rstrip (s : string) : rstrip (rstrip s) = rstrip s.
Proof.
  induction s as [ | c rest IH ]; [ reflexivity | ].
  cbn [rstrip]. destruct (rstrip rest) as [ | k ks ] eqn:E.
  - destruct (isspace c) eqn:W; [ reflexivity | ].
    cbn [rstrip]. now rewrite W.
  - change (rstrip (String c (String k ks))) with
      (match rstrip (String k ks) with
       | EmptyString => if isspace c then EmptyString else String c EmptyString
       | kept => String c kept
       end).
    now rewrite IH.
Qed.

Lemma lstrip_strip (s : string) : lstrip (strip s) = strip s.
Proof.
  unfold strip. destruct (lstrip s) as [ | c rest ] eqn:E; [ reflexivity | ].
  pose proof (lstrip_head _ _ _ E) as W.
  destruct (rstrip_head c rest W) as [ kept -> ].
  cbn [lstrip]. now rewrite W.
Qed.

Lemma whitespace_nil : whitespace "".
Proof. intros c [ ]. Qed.

Lemma whitespace_cons (c : ascii) (s : string) :
  isspace c = true -> whitespace s -> whitespace (String c s).
Proof. intros W S c' [ <- | I ]; [ exact W | now apply S ]. Qed.

Lemma lstrip_split (s : string) :
  exists a, s = (a ++ lstrip s)%string /\ whitespace a.
Proof.
  induction s as [ | c rest (a & E & W) ].
  - exists "". split; [ reflexivity | apply whitespace_nil ].
  - cbn [lstrip]. destruct (isspace c) eqn:C.
    + exists (String c a). split.
      * cbn [String.append]. now rewrite <- E.
      * now apply whitespace_cons.
    + exists "". split; [ reflexivity | apply whitespace_nil ].
Qed.

Lemma rstrip_split (s : string) :
  exists b, s = (rstrip s ++ b)%string /\ whitespace b.
Proof.
  induction s as [ | c rest (b & E & W) ].
  - exists "". split; [ reflexivity | apply whitespace_nil ].
  - cbn [rstrip]. destruct (rstrip rest) as [ | k ks ].
    + destruct (isspace c) eqn:C.
      * exists (String c b). split.
        -- cbn [String.append] in *. now rewrite <- E.
        -- now apply whitespace_cons.
      * exists b. split; [ | exact W ].
        cbn [String.append] in *. now rewrite <- E.
    + exists b. split; [ | exact W ].
      cbn [String.append] in *. now rewrite <- E.
Qed.

Lemma strip_split (s : string) :
  exists a b, s = (a ++ strip s ++ b)%string /\ whitespace a /\ whitespace b.
Proof.
  destruct (lstrip_split s) as (a & E & A).
  destruct (rstrip_split (lstrip s)) as (b & F & B).
  exists a, b. unfold strip. now rewrite <- F.
Qed.

(** * Further properties of the conversation loop *)

Section ChatRuns.

Variable llm_state : Type.
Variable llm_invoke : llm_state -> list pyval -> llm_state * result pyval.

Lemma run_invariant (P : session llm_state -> Prop) :
  (forall s line r, iteration llm_invoke s line r -> P s -> P (fst r)) ->
  forall lines s, P s -> P (fst (run llm_invoke s lines)).
Proof.
  intros Step. induction lines as [ | line rest IH ]; intros s H; cbn [run].
  - exact H.
  - pose proof (Step _ _ _ (loop_body_iteration _ llm_invoke s line) H) as H'.
    destruct (loop_body llm_invoke s line) as [ s' [ | | e ] ];
      cbn [fst] in *; auto.
Qed.

Lemma is_message_quit (line : string) :
  lower (strip line) = "quit" -> is_message line = false.
Proof. intros Q. unfold is_message. now rewrite Q. Qed.

Lemma is_message_empty (line : string) :
  strip line = "" -> is_message line = false.
Proof. intros E. unfold is_message. now rewrite E. Qed.

Lemma is_message_dump (line : string) :
  lower (strip line) = "debug_dump" -> is_message line = false.
Proof. intros D. unfold is_message. rewrite D. apply andb_false_r. Qed.

Lemma invocations_app (es es' : list event) :
  invocations (es ++ es') = invocations es ++ invocations es'.
Proof. apply flat_map_app. Qed.

(** What one iteration adds to the calls made so far. *)
Lemma iteration_invocations (s : session llm_state) (line : string)
      (r : session llm_state * status) :
  iteration llm_invoke s line r ->
  invocations (events (fst r))
  = invocations (events s)
    ++ (if is_message line then
          match convert_to_standard_format (conversation_history s) with
          | Ok standard =>
              [standard ++ [create_guardrails_format (strip line)]]
          | Raise _ => []
          end
        else []).
Proof.
  intros I.
  destruct I as [ Q | E | D | [ ] M C | standard st [ ] M C L
                | standard st content M C L ];
    cbn [fst emit events error_report]; rewrite invocations_app.
  - now rewrite (is_message_quit _ Q).
  - now rewrite (is_message_empty _ E).
  - now rewrite (is_message_dump _ D).
  - now rewrite M, C.
  - now rewrite M, C.
  - now rewrite M, C.
Qed.

(** X6. However the session goes, the stored transcript holds at most one
    tagged turn, and one that is there was built by
    [create_guardrails_format]. *)
Theorem stored_transcript_one_tagged_at_most (st : llm_state)
      (lines : list string) :
  let h :=
    conversation_history (fst (run_chat_interface llm_invoke st lines)) in
  filter isinstance_dict h = []
  \/ exists text, filter isinstance_dict h = [create_guardrails_format text].
Proof.
  cbv zeta. unfold run_chat_interface.
  apply (run_invariant
           (fun s =>
              filter isinstance_dict (conversation_history s) = []
              \/ exists text,
                  filter isinstance_dict (conversation_history s)
                  = [create_guardrails_format text])).
  - intros s line r I H.
    destruct I as [ | | | | standard ? ? ? C | standard ? ? ? C ];
      cbn [fst emit conversation_history]; try exact H;
      right; exists (strip line);
      rewrite filter_app, (filter_plain _ (convert_result_plain _ _ C));
      reflexivity.
  - now left.
Qed.

(** X7. However the session goes, the stored transcript can be converted:
    in a session that starts from the system turn,
    [convert_to_standard_format] never raises, and the converted transcript
    has as many turns as the stored one. *)
Theorem stored_transcript_converts (st : llm_state) (lines : list string) :
  exists standard,
    convert_to_standard_format
      (conversation_history (fst (run_chat_interface llm_invoke st lines)))
    = Ok standard
    /\ List.length standard
       = List.length
           (conversation_history
              (fst (run_chat_interface llm_invoke st lines))).
Proof.
  destruct (convert_total
              (conversation_history
                 (fst (run_chat_interface llm_invoke st lines))))
    as [ standard C ].
  - apply (run_transcript_ok _ llm_invoke lines (start st)
             (start_transcript_ok _ st)).
  - exists standard. split; [ exact C | now apply convert_length ].
Qed.

Lemma iteration_invoke_text (s : session llm_state) (line : string)
      (r : session llm_state * status) (messages : list pyval) :
  iteration llm_invoke s line r ->
  In (Invoke messages) (events (fst r)) ->
  In (Invoke messages) (events s)
  \/ (is_message line = true
      /\ last messages system_turn = create_guardrails_format (strip line)).
Proof.
  intros I J.
  destruct I as [ | | | [ ] | ? ? [ ] M | ? ? ? M ];
    cbn [fst emit events error_report] in J;
    apply in_app_or in J as [ J | J ]; auto;
    cbn [In] in J;
    repeat (destruct J as [ J | J ]; try discriminate J);
    try contradiction;
    injection J as <-; right; (split; [ exact M | apply last_last ]).
Qed.

(** X8. The text handed over for moderation is the operator's line without
    the white space around it: the last element of every sequence the loop
    sends is the tagged turn of [strip line] for one of the lines typed,
    that text is not empty, has no white space at either end, and is not a
    command. *)
Theorem submitted_text_is_trimmed_line (lines : list string) :
  forall (s : session llm_state) (messages : list pyval),
    In (Invoke messages) (events (fst (run llm_invoke s lines))) ->
    In (Invoke messages) (events s)
    \/ exists line a b,
        In line lines
        /\ last messages system_turn = create_guardrails_format (strip line)
        /\ line = (a ++ strip line ++ b)%string
        /\ whitespace a /\ whitespace b
        /\ strip line <> ""
        /\ lstrip (strip line) = strip line
        /\ rstrip (strip line) = strip line
        /\ lower (strip line) <> "quit"
        /\ lower (strip line) <> "debug_dump".
Proof.
  induction lines as [ | line rest IH ]; intros s messages J; cbn [run] in J.
  - now left.
  - pose proof (loop_body_iteration _ llm_invoke s line) as I.
    assert (In (Invoke messages)
              (events (fst (loop_body llm_invoke s line)))
            \/ exists l a b,
                In l rest
                /\ last messages system_turn
                   = create_guardrails_format (strip l)
                /\ l = (a ++ strip l ++ b)%string
                /\ whitespace a /\ whitespace b
                /\ strip l <> ""
                /\ lstrip (strip l) = strip l
                /\ rstrip (strip l) = strip l
                /\ lower (strip l) <> "quit"
                /\ lower (strip l) <> "debug_dump") as [ K | K ].
    { destruct (loop_body llm_invoke s line) as [ s' [ | | e ] ];
        cbn [fst] in *; auto. }
    + destruct (iteration_invoke_text _ _ _ _ I K) as [ O | [ M L ] ];
        [ now left | right ].
      destruct (strip_split line) as (a & b & E & A & B).
      destruct (is_message_inv _ M) as (Q & N & D).
      exists line, a, b.
      repeat split; auto using lstrip_strip; [ now left | ].
      unfold strip. apply rstrip_rstrip.
    + right. destruct K as (l & a & b & In_l & K).
      exists l, a, b. split; [ now right | exact K ].
Qed.

(** X9. Once the session has ended, by quit or by an exception that left
    the loop, no further line is read: the lines that follow change nothing,
    neither the transcript nor the output nor the collaborator. *)
Theorem lines_after_end_are_not_read (s : session llm_state)
      (lines more : list string) :
  snd (run llm_invoke s lines) <> AwaitingInput ->
  run llm_invoke s (lines ++ more) = run llm_invoke s lines.
Proof.
  revert s. induction lines as [ | line rest IH ]; intros s N.
  - now contradiction N.
  - cbn [app run] in *.
    destruct (loop_body llm_invoke s line) as [ s' [ | | e ] ];
      [ now apply IH | reflexivity | reflexivity ].
Qed.


Lemma iteration_appends (s : session llm_state) (line : string)
      (r : session llm_state * status) (a : list pyval) :
  iteration llm_invoke s line r ->
  convert_to_standard_format (conversation_history s) = Ok a ->
  exists added,
    convert_to_standard_format (conversation_history (fst r))
    = Ok (a ++ added).
Proof.
  intros I A.
  destruct I as [ | | | e M C | standard st e M C L
                | standard st content M C L ];
    cbn [fst emit conversation_history].
  - exists []. now rewrite app_nil_r.
  - exists []. now rewrite app_nil_r.
  - exists []. now rewrite app_nil_r.
  - exists []. now rewrite app_nil_r.
  - rewrite A in C. injection C as <-.
    exists [user_turn (strip line)].
    rewrite convert_app, (convert_plain a)
      by (eapply convert_result_plain, A).
    reflexivity.
  - rewrite A in C. injection C as <-.
    exists [user_turn (strip line); assistant_turn content].
    rewrite convert_app, (convert_plain a)
      by (eapply convert_result_plain, A).
    reflexivity.
Qed.

(** X11. The loop only ever appends: if the transcript reads [a] in plain
    form before some lines are processed, it reads [a] followed by the new
    turns afterwards.  No earlier turn is dropped, changed or moved. *)
Theorem earlier_turns_are_kept (lines : list string) :
  forall (s : session llm_state) (a : list pyval),
    convert_to_standard_format (conversation_history s) = Ok a ->
    exists added,
      convert_to_standard_format
        (conversation_history (fst (run llm_invoke s lines)))
      = Ok (a ++ added).
Proof.
  induction lines as [ | line rest IH ]; intros s a A; cbn [run].
  - exists []. now rewrite app_nil_r.
  - destruct (iteration_appends _ _ _ _
                (loop_body_iteration _ llm_invoke s line) A) as [ added C ].
    destruct (loop_body llm_invoke s line) as [ s' [ | | e ] ];
      cbn [fst] in *; try (now exists added).
    destruct (IH s' _ C) as [ added' C' ].
    exists (added ++ added'). now rewrite app_assoc.
Qed.

Lemma loop_body_same (s1 s2 : session llm_state) (line : string) :
  same_state s1 s2 ->
  same_state (fst (loop_body llm_invoke s1 line))
    (fst (loop_body llm_invoke s2 line))
  /\ snd (loop_body llm_invoke s1 line) = snd (loop_body llm_invoke s2 line).
Proof.
  intros (H & L & V).
  pose proof (iteration_invocations _ _ _
                (loop_body_iteration _ llm_invoke s1 line)) as V1.
  pose proof (iteration_invocations _ _ _
                (loop_body_iteration _ llm_invoke s2 line)) as V2.
  rewrite H, V in V1. rewrite <- V2 in V1. clear V2.
  unfold same_state. rewrite V1. clear V1 V.
  unfold loop_body, submit.
  destruct (String.eqb (lower (strip line)) "quit"); [ now cbn | ].
  destruct (String.eqb (strip line) ""); [ now cbn | ].
  destruct (String.eqb (lower (strip line)) "debug_dump"); [ now cbn | ].
  cbn [emit conversation_history llm events set_history]. rewrite H, L.
  destruct (convert_to_standard_format (conversation_history s2)).
  - destruct (llm_invoke (llm s2) _) as [ st [ content | e ] ].
    + now cbn.
    + rewrite !handler_raises. now cbn.
  - rewrite !handler_raises. now cbn.
Qed.

Lemma loop_body_noop (s : session llm_state) (line : string) :
  is_noop line = true ->
  same_state (fst (loop_body llm_invoke s line)) s
  /\ snd (loop_body llm_invoke s line) = AwaitingInput.
Proof.
  intros N. apply orb_prop in N as [ E | D ].
  - apply String.eqb_eq in E.
    rewrite (loop_body_empty _ llm_invoke _ _ E). repeat split.
    cbn [fst emit events]. rewrite invocations_app. apply app_nil_r.
  - apply String.eqb_eq in D.
    rewrite (loop_body_dump _ llm_invoke _ _ D). repeat split.
    cbn [fst emit events]. rewrite invocations_app. apply app_nil_r.
Qed.

Lemma same_state_trans (s1 s2 s3 : session llm_state) :
  same_state s1 s2 -> same_state s2 s3 -> same_state s1 s3.
Proof.
  intros (H & L & V) (H' & L' & V'). repeat split; congruence.
Qed.

Lemma run_noop (lines : list string) :
  forall s1 s2 : session llm_state,
    same_state s1 s2 ->
    same_state (fst (run llm_invoke s1 lines))
      (fst (run llm_invoke s2 (filter (fun l => negb (is_noop l)) lines)))
    /\ snd (run llm_invoke s1 lines)
       = snd (run llm_invoke s2 (filter (fun l => negb (is_noop l)) lines)).
Proof.
  induction lines as [ | line rest IH ]; intros s1 s2 S.
  - split; [ exact S | reflexivity ].
  - cbn [filter run]. destruct (is_noop line) eqn:N; cbn [negb].
    + destruct (loop_body_noop s1 line N) as [ S1 A ].
      destruct (loop_body llm_invoke s1 line) as [ s1' st ].
      cbn [fst snd] in *. subst st.
      apply IH. eapply same_state_trans; eassumption.
    + cbn [run]. destruct (loop_body_same _ _ line S) as [ S' A ].
      destruct (loop_body llm_invoke s1 line) as [ s1' st1 ].
      destruct (loop_body llm_invoke s2 line) as [ s2' st2 ].
      cbn [fst snd] in *. subst st2.
      destruct st1; [ now apply IH | | ]; (split; [ exact S' | reflexivity ]).
Qed.

(** X12. Empty lines and debug dumps only print: the session run on the
    lines without them ends with the same transcript, the same collaborator
    state, the same calls to the collaborator in the same order, and the
    same status. *)
Theorem empty_lines_and_dumps_only_print (s : session llm_state)
      (lines : list string) :
  let r := run llm_invoke s lines in
  let r' := run llm_invoke s (filter (fun l => negb (is_noop l)) lines) in
  conversation_history (fst r) = conversation_history (fst r')
  /\ llm (fst r) = llm (fst r')
  /\ invocations (events (fst r)) = invocations (events (fst r'))
  /\ snd r = snd r'.
Proof.
  cbv zeta.
  destruct (run_noop lines s s) as [ (H & L & V) A ].
  - repeat split.
  - auto.
Qed.

(** X13. The loop calls the collaborator at most once per line that is a
    message, and never for a command or an empty line: no call is
    repeated. *)
Theorem at_most_one_call_per_message (lines : list string) :
  forall s : session llm_state,
    List.length (invocations (events (fst (run llm_invoke s lines))))
    <= List.length (invocations (events s))
       + List.length (filter is_message lines).
Proof.
  induction lines as [ | line rest IH ]; intros s; cbn [run filter].
  - cbn. lia.
  - pose proof (iteration_invocations _ _ _
                  (loop_body_iteration _ llm_invoke s line)) as V.
    apply (f_equal (@List.length _)) in V. rewrite length_app in V.
    assert (List.length
              (invocations (events (fst (loop_body llm_invoke s line))))
            <= List.length (invocations (events s))
               + (if is_message line then 1 else 0)) as B.
    { rewrite V. destruct (is_message line); [ | cbn; lia ].
      destruct (convert_to_standard_format (conversation_history s));
        cbn; lia. }
    clear V.
    destruct (loop_body llm_invoke s line) as [ s' [ | | e ] ];
      cbn [fst] in *.
    + specialize (IH s'). destruct (is_message line); cbn [List.length]; lia.
    + destruct (is_message line); cbn [List.length]; lia.
    + destruct (is_message line); cbn [List.length]; lia.
Qed.


End ChatRuns.

(** * The further properties at concrete inputs *)


Lemma convert_missing_key_witness :
  convert_to_standard_format
    ([system_turn] ++ VDict [("content", VStr "hi")] :: [user_turn "later"])
  = Raise (Exn "KeyError" "'role'")
  /\ convert_to_standard_format
       ([system_turn] ++ VDict [("role", VStr "user")] :: [user_turn "later"])
     = Raise (Exn "KeyError" "'content'").
Proof.
  split.
  - apply (proj1 (convert_missing_key [system_turn] [system_turn]
                    [user_turn "later"] [("content", VStr "hi")] eq_refl)).
    reflexivity.
  - apply (proj2 (convert_missing_key [system_turn] [system_turn]
                    [user_turn "later"] [("role", VStr "user")] eq_refl)).
    + discriminate.
    + reflexivity.
Defined.

Lemma convert_string_content_raises_witness :
  convert_to_standard_format
    ([system_turn]
     ++ VDict [("role", VStr "user"); ("content", VStr "hello")] :: [])
  = Raise (Exn "TypeError" "string indices must be integers, not 'str'").
Proof.
  apply (convert_string_content_raises [system_turn] [system_turn] []
           [("role", VStr "user"); ("content", VStr "hello")]
           (VStr "user") "hello");
    reflexivity.
Defined.

Lemma convert_uses_first_block_witness :
  convert_to_standard_format
    ([system_turn]
     ++ VDict
          [ ("name", VStr "operator");
            ("role", VStr "assistant");
            ("content",
              VList [guard_block (VStr "first"); guard_block (VStr "second")]) ]
        :: [create_guardrails_format "next"])
  = Ok ([system_turn]
        ++ VTuple [VStr "assistant"; VStr "first"] :: [user_turn "next"]).
Proof.
  apply convert_uses_first_block with (others := [guard_block (VStr "second")]);
    reflexivity.
Defined.

Lemma submitted_text_is_trimmed_line_witness :
  In (Invoke
        [system_turn; create_guardrails_format "What is a checking account?"])
     (events (start [Ok checking_answer]))
  \/ exists line a b,
      In line ["  What is a checking account? "]
      /\ last
           [system_turn;
            create_guardrails_format "What is a checking account?"]
           system_turn
         = create_guardrails_format (strip line)
      /\ line = (a ++ strip line ++ b)%string
      /\ whitespace a /\ whitespace b
      /\ strip line <> ""
      /\ lstrip (strip line) = strip line
      /\ rstrip (strip line) = strip line
      /\ lower (strip line) <> "quit"
      /\ lower (strip line) <> "debug_dump".
Proof.
  apply (submitted_text_is_trimmed_line _ scripted_invoke
           ["  What is a checking account? "] (start [Ok checking_answer])).
  cbn. right. right. left. reflexivity.
Defined.

Lemma lines_after_end_are_not_read_witness :
  run scripted_invoke (start [Ok checking_answer])
    (["What is a checking account?"; " QUIT "] ++ ["And a savings account?"])
  = run scripted_invoke (start [Ok checking_answer])
      ["What is a checking account?"; " QUIT "].
Proof.
  apply lines_after_end_are_not_read. discriminate.
Defined.

Lemma earlier_turns_are_kept_witness :
  exists added,
    convert_to_standard_format (conversation_history after_two_exchanges)
    = Ok ([system_turn] ++ added).
Proof.
  apply (earlier_turns_are_kept _ scripted_invoke (map fst two_exchanges)
           (start [Ok checking_answer; Ok savings_answer]) [system_turn]).
  reflexivity.
Defined.

